(** * phone-parser: the [PhoneNumberParser] class of [src/index.js]

    The class keeps a table from country codes to [RegExp] objects and
    filters the answers of libphonenumber's [parsePhoneNumberFromString]
    through it.  The development below embeds

    - the fragment of JavaScript regular expressions that the table can be
      read in ([RegExp.t], with [RegExp.test] for [RegExp.prototype.test]);
    - the object store: [countryValidations] is one mutable object that the
      instance holds by reference and that [listSupportedCountries] hands
      out, so the store and the aliasing are explicit;
    - the six methods, in a state-and-exception monad [JS];
    - the example that the module runs below the class ([module_body]).

    Modelling conventions.  A property key is a [string]; the policy object
    is a [gmap] from keys to [RegExp] values, its own properties; a missing
    property reads as [None], JavaScript's [undefined]; every [RegExp] value
    is an object and hence truthy.  The object is an object literal and
    inherits the members of [Object.prototype]: the key that [validate] is
    called with is the caller's and may name one of them, so its guard reads
    through the prototype ([truthy_prop]); the key that [parse] reads is the
    country that libphonenumber reports, an ISO code or [undefined], which
    names none, so the own properties decide there.  Regular expressions
    carry no flags, as the literals of the source carry none. *)

From Stdlib Require Import Ascii String DecimalString.
From stdpp Require Import gmap strings list fin_maps.

Local Open Scope string_scope.

(** ** Regular expressions *)

Module RegExp.

(** Abstract syntax of a pattern.  [Quant r lo hi] is [r{lo,hi}], with
    [hi = None] for an open upper bound ([*] is [{0,}], [+] is [{1,}]). *)
Inductive t : Type :=
| Empty
| Chr (c : ascii)
| Digit
| Bol
| Eol
| Seq (r1 r2 : t)
| Alt (r1 r2 : t)
| Quant (r : t) (lo : nat) (hi : option nat).

(** A pattern written as the sequence of its terms. *)
Fixpoint seq (rs : list t) : t :=
  match rs with
  | [] => Empty
  | [r] => r
  | r :: rs' => Seq r (seq rs')
  end.

(** *** Matching

    A matcher is run on the rest of the input, knowing whether it stands at
    the start of the input, and hands what is left to a continuation. *)
Definition cont : Type := bool -> list ascii -> bool.
Definition matcher : Type := bool -> list ascii -> cont -> bool.

Definition is_digit (a : ascii) : bool :=
  (48 <=? nat_of_ascii a)%nat && (nat_of_ascii a <=? 57)%nat.

Definition m_char (p : ascii -> bool) : matcher := fun _ s k =>
  match s with
  | a :: s' => p a && k false s'
  | [] => false
  end.

Definition m_bol : matcher := fun b s k => b && k b s.

Definition m_eol : matcher := fun b s k =>
  match s with
  | [] => k b []
  | _ :: _ => false
  end.

Definition m_seq (m1 m2 : matcher) : matcher := fun b s k =>
  m1 b s (fun b' s' => m2 b' s' k).

Definition m_alt (m1 m2 : matcher) : matcher := fun b s k =>
  m1 b s k || m2 b s k.

(** Between [lo] and [hi] iterations, the longer runs tried first. *)
Fixpoint m_rep (m : matcher) (lo hi : nat) : matcher := fun b s k =>
  match hi, lo with
  | O, O => k b s
  | O, S _ => false
  | S hi', O => m b s (fun b' s' => m_rep m 0 hi' b' s' k) || k b s
  | S hi', S lo' => m b s (fun b' s' => m_rep m lo' hi' b' s' k)
  end.

(** Any number of iterations.  An iteration that consumes nothing is
    rejected, so the length of the input bounds their number. *)
Fixpoint m_star_upto (m : matcher) (fuel : nat) : matcher := fun b s k =>
  match fuel with
  | O => k b s
  | S fuel' =>
      m b s (fun b' s' =>
               bool_decide (length s' < length s)
               && m_star_upto m fuel' b' s' k)
      || k b s
  end.

Definition m_star (m : matcher) : matcher := fun b s k =>
  m_star_upto m (length s) b s k.

Fixpoint compile (r : t) : matcher :=
  match r with
  | Empty => fun b s k => k b s
  | Chr c => m_char (fun a => bool_decide (a = c))
  | Digit => m_char is_digit
  | Bol => m_bol
  | Eol => m_eol
  | Seq r1 r2 => m_seq (compile r1) (compile r2)
  | Alt r1 r2 => m_alt (compile r1) (compile r2)
  | Quant r lo (Some hi) => m_rep (compile r) lo hi
  | Quant r lo None =>
      m_seq (m_rep (compile r) lo lo) (m_star (compile r))
  end.

Definition accept : cont := fun _ _ => true.

Definition at_end : cont := fun _ s =>
  match s with
  | [] => true
  | _ :: _ => false
  end.

(** The match is attempted at every index of the input in turn. *)
Fixpoint search (m : matcher) (b : bool) (s : list ascii) : bool :=
  m b s accept
  || match s with
     | [] => false
     | _ :: s' => search m false s'
     end.

(** [re.test(str)] for a pattern without flags. *)
Definition test (re : t) (str : string) : bool :=
  search (compile re) true (list_ascii_of_string str).

(** The pattern matches [str] from its first character to its last. *)
Definition full_match (re : t) (str : string) : bool :=
  compile re true (list_ascii_of_string str) at_end.

(** Two properties of the matchers that [compile] builds: the
    continuation is used only through the answers it gives, and a laxer
    continuation keeps a success. *)
Definition extensional (m : matcher) : Prop :=
  forall b s k k', (forall b' s', k b' s' = k' b' s') -> m b s k = m b s k'.

Definition monotone (m : matcher) : Prop :=
  forall b s k k',
    (forall b' s', k b' s' = true -> k' b' s' = true) ->
    m b s k = true -> m b s k' = true.

(** *** Source text *)

Definition syntax_characters : list ascii :=
  list_ascii_of_string "^$\.*+?()[]{}|/".

Definition decimal (n : nat) : string :=
  NilEmpty.string_of_uint (Nat.to_uint n).

Definition is_atom (r : t) : bool :=
  match r with
  | Chr _ | Digit => true
  | _ => false
  end.

Definition is_alt (r : t) : bool :=
  match r with
  | Alt _ _ => true
  | _ => false
  end.

Definition group (s : string) : string := "(?:" ++ s ++ ")".

Definition quantifier (lo : nat) (hi : option nat) : string :=
  match lo, hi with
  | 0, None => "*"
  | 1, None => "+"
  | 0, Some 1 => "?"
  | _, None => "{" ++ decimal lo ++ ",}"
  | _, Some h =>
      if bool_decide (lo = h) then "{" ++ decimal lo ++ "}"
      else "{" ++ decimal lo ++ "," ++ decimal h ++ "}"
  end.

(** The text between the slashes of the literal that denotes the pattern. *)
Fixpoint source (r : t) : string :=
  match r with
  | Empty => "(?:)"
  | Chr c =>
      if bool_decide (c ∈ syntax_characters)
      then String "\" (String c EmptyString)
      else String c EmptyString
  | Digit => "\d"
  | Bol => "^"
  | Eol => "$"
  | Seq r1 r2 =>
      (if is_alt r1 then group (source r1) else source r1)
      ++ (if is_alt r2 then group (source r2) else source r2)
  | Alt r1 r2 => source r1 ++ "|" ++ source r2
  | Quant r lo hi =>
      (if is_atom r then source r else group (source r))
      ++ quantifier lo hi
  end.

End RegExp.

(** ** The object store *)

(** A JavaScript value read from the policy object: a [RegExp] or
    [undefined]. *)
Abbreviation JSValue := (option RegExp.t).

Definition truthy (v : JSValue) : bool :=
  match v with
  | Some _ => true
  | None => false
  end.

(** A property key made of what the parser reports as the country, which may
    be [undefined]. *)
Definition property_key (v : option string) : string :=
  match v with
  | Some s => s
  | None => "undefined"
  end.

Definition loc : Type := positive.

(** The store: every allocated object with its own properties.  The order
    in which an object lists its keys is not recorded. *)
Abbreviation heap := (gmap loc (gmap string RegExp.t)).

Inductive JSError : Type :=
| Error (message : string)
| TypeError (message : string).

Inductive completion (A : Type) : Type :=
| Normal (a : A)
| Throw (e : JSError).
Arguments Normal {A} a.
Arguments Throw {A} e.

(** A computation runs on the store and completes normally or throws. *)
Definition JS (A : Type) : Type := heap -> completion A * heap.

#[global] Instance JS_ret : MRet JS := fun A a h => (Normal a, h).

#[global] Instance JS_bind : MBind JS := fun A B f m h =>
  match m h with
  | (Normal a, h') => f a h'
  | (Throw e, h') => (Throw e, h')
  end.

Definition throw {A : Type} (e : JSError) : JS A := fun h => (Throw e, h).

(** [new Object] with the given own properties. *)
Definition alloc (o : gmap string RegExp.t) : JS loc := fun h =>
  let l := fresh (dom h) in (Normal l, <[l := o]> h).

(** [o[k]] *)
Definition get_prop (l : loc) (k : string) : JS JSValue := fun h =>
  (Normal (h !! l ≫= fun o => o !! k), h).

(** The string-named members of [Object.prototype], which an object literal
    inherits.  Each is a function, and [__proto__] reads as the prototype
    itself: all are truthy, and none is a [RegExp]. *)
Definition Object_prototype : list string :=
  ["constructor"; "__defineGetter__"; "__defineSetter__"; "hasOwnProperty";
   "__lookupGetter__"; "__lookupSetter__"; "isPrototypeOf";
   "propertyIsEnumerable"; "toString"; "valueOf"; "__proto__";
   "toLocaleString"].

(** The truth value of [o[k]] for a key of any shape: an own property
    decides, and a name that the object does not have itself is looked up in
    [Object.prototype]. *)
Definition truthy_prop (l : loc) (k : string) : JS bool :=
  own ← get_prop l k;
  mret (truthy own || bool_decide (k ∈ Object_prototype)).

(** [o[k] = v], which makes [k] an own property; the one key for which the
    assignment does something else is [__proto__], which sets the prototype
    of the object. *)
Definition set_prop (l : loc) (k : string) (v : RegExp.t) : JS unit := fun h =>
  (Normal tt, alter (insert k v) l h).

(** [delete o[k]] *)
Definition delete_prop (l : loc) (k : string) : JS unit := fun h =>
  (Normal tt, alter (delete k) l h).

(** [v.test(str)]; [undefined] has no method to call. *)
Definition call_test (v : JSValue) (str : string) : JS bool :=
  match v with
  | Some re => mret (RegExp.test re str)
  | None => throw (TypeError "Cannot read properties of undefined")
  end.

(** ** The external parser *)

(** What [parsePhoneNumberFromString] returns when it returns an object. *)
Record PhoneNumber : Type := {
  country : option string;
  isValid : bool;
  format_E164 : string
}.

(** libphonenumber's entry point: a number object, or [undefined]. *)
Class Libphonenumber : Type :=
  parsePhoneNumberFromString : string -> string -> option PhoneNumber.

(** ** The class *)

Record PhoneNumberParser : Type := {
  countryValidations : loc;
  defaultCountry : string
}.

(** The five literals of the constructor. *)
Definition pattern_US : RegExp.t :=
  RegExp.seq [RegExp.Bol; RegExp.Chr "+"; RegExp.Chr "1";
              RegExp.Quant RegExp.Digit 10 (Some 10); RegExp.Eol].

Definition pattern_UK : RegExp.t :=
  RegExp.seq [RegExp.Bol; RegExp.Chr "+"; RegExp.Chr "4"; RegExp.Chr "4";
              RegExp.Quant RegExp.Digit 10 (Some 10); RegExp.Eol].

Definition pattern_UA : RegExp.t :=
  RegExp.seq [RegExp.Bol; RegExp.Chr "+"; RegExp.Chr "3"; RegExp.Chr "8";
              RegExp.Chr "0"; RegExp.Quant RegExp.Digit 9 (Some 9);
              RegExp.Eol].

Definition pattern_FR : RegExp.t :=
  RegExp.seq [RegExp.Bol; RegExp.Chr "+"; RegExp.Chr "3"; RegExp.Chr "3";
              RegExp.Quant RegExp.Digit 9 (Some 9); RegExp.Eol].

Definition pattern_DE : RegExp.t :=
  RegExp.seq [RegExp.Bol; RegExp.Chr "+"; RegExp.Chr "4"; RegExp.Chr "9";
              RegExp.Quant RegExp.Digit 10 (Some 11); RegExp.Eol].

Definition default_validations : gmap string RegExp.t :=
  <["US" := pattern_US]> (<["UK" := pattern_UK]> (<["UA" := pattern_UA]>
  (<["FR" := pattern_FR]> (<["DE" := pattern_DE]> ∅)))).

(** [new PhoneNumberParser()] *)
Definition constructor : JS PhoneNumberParser :=
  l ← alloc default_validations;
  mret {| countryValidations := l; defaultCountry := "US" |}.

Section Methods.

Context `{Libphonenumber}.

(** [parse(phoneNumber, countryCode = this.defaultCountry)]; [None] for
    the argument is a call that leaves it out, [None] for the result is
    [null]. *)
Definition parse (this : PhoneNumberParser) (phoneNumber : string)
    (countryCode : option string) : JS (option string) :=
  let countryCode := default (defaultCountry this) countryCode in
  match parsePhoneNumberFromString phoneNumber countryCode with
  | None => mret None
  | Some parsedNumber =>
      if negb (isValid parsedNumber) then mret None
      else
        let formattedNumber := format_E164 parsedNumber in
        let detectedCountry := property_key (country parsedNumber) in
        rule ← get_prop (countryValidations this) detectedCountry;
        if truthy rule then
          rule' ← get_prop (countryValidations this) detectedCountry;
          ok ← call_test rule' formattedNumber;
          if negb ok then mret None else mret (Some formattedNumber)
        else mret (Some formattedNumber)
  end.

(** [validate(phoneNumber, countryCode)] *)
Definition validate (this : PhoneNumberParser) (phoneNumber : string)
    (countryCode : string) : JS bool :=
  defined ← truthy_prop (countryValidations this) countryCode;
  if negb defined then
    throw (Error ("Validation rules not defined for country: "
                  ++ countryCode))
  else
    parsedNumber ← parse this phoneNumber (Some countryCode);
    mret (bool_decide (parsedNumber ≠ None)).

End Methods.

(** [addCountryValidation(countryCode, regex)] *)
Definition addCountryValidation (this : PhoneNumberParser)
    (countryCode : string) (regex : RegExp.t) : JS unit :=
  set_prop (countryValidations this) countryCode regex.

(** [removeCountryValidation(countryCode)] *)
Definition removeCountryValidation (this : PhoneNumberParser)
    (countryCode : string) : JS unit :=
  delete_prop (countryValidations this) countryCode.

(** [listSupportedCountries()]: the reference held in the field. *)
Definition listSupportedCountries (this : PhoneNumberParser) : JS loc :=
  mret (countryValidations this).

(** The store after a computation, and what it completed with. *)
Definition exec {A : Type} (m : JS A) (h : heap) : heap := (m h).2.
Definition result {A : Type} (m : JS A) (h : heap) : completion A := (m h).1.

(** In store [h] the policy table of [this] is [t]. *)
Definition policy_table (h : heap) (this : PhoneNumberParser)
    (t : gmap string RegExp.t) : Prop :=
  h !! countryValidations this = Some t.

(** What [parse] makes of a number object when the policy table is [t]. *)
Definition screened (t : gmap string RegExp.t) (p : PhoneNumber)
    : option string :=
  if isValid p then
    match t !! property_key (country p) with
    | Some re =>
        if RegExp.test re (format_E164 p) then Some (format_E164 p) else None
    | None => Some (format_E164 p)
    end
  else None.

(** The shape of the five literals: [^], a literal prefix, between [lo] and
    [hi] digits, [$]. *)
Definition prefix_and_digits (prefix : string) (lo hi : nat) : RegExp.t :=
  RegExp.seq (RegExp.Bol
              :: map RegExp.Chr (list_ascii_of_string prefix)
              ++ [RegExp.Quant RegExp.Digit lo (Some hi); RegExp.Eol]).

(** A pattern that opens with [^] and closes with [$]. *)
Fixpoint opens_with_bol (r : RegExp.t) : bool :=
  match r with
  | RegExp.Bol => true
  | RegExp.Seq r1 _ => opens_with_bol r1
  | _ => false
  end.

Fixpoint closes_with_eol (r : RegExp.t) : bool :=
  match r with
  | RegExp.Eol => true
  | RegExp.Seq _ r2 => closes_with_eol r2
  | _ => false
  end.

Definition anchored (r : RegExp.t) : bool :=
  opens_with_bol r && closes_with_eol r.

(** The strings made of [prefix] and then between [lo] and [hi] decimal
    digits. *)
Definition prefix_then_digits (prefix : string) (lo hi : nat) (str : string)
    : Prop :=
  exists digits : list ascii,
    list_ascii_of_string str
    = (list_ascii_of_string prefix ++ digits)%list
    /\ forallb RegExp.is_digit digits = true
    /\ lo <= length digits <= hi.

(** ** The module body

    Below the class the module runs an example on a fresh instance, printing
    each answer with [console.log], and then assigns [module.exports]. *)

(** What the example hands to [console.log]: a string or [null], a boolean,
    an object. *)
Inductive logged : Type :=
| LogString (s : option string)
| LogBoolean (b : bool)
| LogObject (l : loc).

(** The body runs on the store and the lines printed so far. *)
Definition Run (A : Type) : Type :=
  heap * list logged -> completion A * (heap * list logged).

#[global] Instance Run_ret : MRet Run := fun A a st => (Normal a, st).

#[global] Instance Run_bind : MBind Run := fun A B f m st =>
  match m st with
  | (Normal a, st') => f a st'
  | (Throw e, st') => (Throw e, st')
  end.

Definition lift {A : Type} (m : JS A) : Run A := fun st =>
  match m st.1 with
  | (r, h') => (r, (h', st.2))
  end.

Definition console_log (v : logged) : Run unit := fun st =>
  (Normal tt, (st.1, (st.2 ++ [v])%list)).

Section Body.

Context `{Libphonenumber}.

(** Lines 86 to 112; completing normally is reaching [module.exports]. *)
Definition module_body : Run unit :=
  phoneParser ← lift constructor;
  r ← lift (parse phoneParser "1234567890" (Some "US"));
  console_log (LogString r);;
  r ← lift (parse phoneParser "+442071838750" (Some "UK"));
  console_log (LogString r);;
  r ← lift (parse phoneParser "0671234567" (Some "UA"));
  console_log (LogString r);;
  r ← lift (parse phoneParser "+33612345678" (Some "FR"));
  console_log (LogString r);;
  r ← lift (parse phoneParser "+4915123456789" (Some "DE"));
  console_log (LogString r);;
  b ← lift (validate phoneParser "+11234567890" "US");
  console_log (LogBoolean b);;
  b ← lift (validate phoneParser "0671234567" "UA");
  console_log (LogBoolean b);;
  b ← lift (validate phoneParser "abcdefgh" "FR");
  console_log (LogBoolean b);;
  b ← lift (validate phoneParser "+999123456789" "US");
  console_log (LogBoolean b);;
  lift (addCountryValidation phoneParser "CA" pattern_US);;
  b ← lift (validate phoneParser "+15145551234" "CA");
  console_log (LogBoolean b);;
  l ← lift (listSupportedCountries phoneParser);
  console_log (LogObject l);;
  lift (removeCountryValidation phoneParser "FR");;
  b ← lift (validate phoneParser "+33612345678" "FR");
  console_log (LogBoolean b);;
  mret tt.

End Body.

(** ** A sample parser

    A stand-in for libphonenumber that knows the numbers of the example run
    at the foot of the source, with the answers its comments record.  A
    number written with its calling code is recognised whatever the hint. *)
Module Sample.

Definition number (c : string) (e164 : string) : PhoneNumber :=
  {| country := Some c; isValid := true; format_E164 := e164 |}.

Definition international : gmap string PhoneNumber :=
  list_to_map [
    ("+11234567890", number "US" "+11234567890");
    ("+442071838750", number "GB" "+442071838750");
    ("+33612345678", number "FR" "+33612345678");
    ("+4915123456789", number "DE" "+4915123456789");
    ("+15145551234", number "CA" "+15145551234");
    ("+1123", {| country := None; isValid := false;
                 format_E164 := "+1123" |})
  ].

Definition national : gmap (string * string) PhoneNumber :=
  list_to_map [
    (("1234567890", "US"), number "US" "+11234567890");
    (("0671234567", "UA"), number "UA" "+380671234567")
  ].

#[export] Instance parser : Libphonenumber := fun text hint =>
  match international !! text with
  | Some p => Some p
  | None => national !! (text, hint)
  end.

(** A fresh instance in an empty store. *)
Definition this : PhoneNumberParser :=
  {| countryValidations := 1%positive; defaultCountry := "US" |}.

Definition store : heap := exec constructor ∅.

(** [/\d{10}/]: ten digits anywhere. *)
Definition ten_digits : RegExp.t :=
  RegExp.Quant RegExp.Digit 10 (Some 10).

End Sample.

(** The sample parser extended with an international freephone number,
    which belongs to no country. *)
Module Freephone.

Definition number : PhoneNumber :=
  {| country := None; isValid := true; format_E164 := "+80012345678" |}.

#[export] Instance parser : Libphonenumber := fun text hint =>
  if bool_decide (text = "+80012345678") then Some number
  else Sample.parser text hint.

End Freephone.

(** * Properties *)

(** ** The store *)

Section Store.

Implicit Types (h : heap) (this : PhoneNumberParser)
  (t : gmap string RegExp.t) (k c : string).

Lemma bind_run {A B : Type} (m : JS A) (f : A -> JS B) h :
  (m ≫= f) h
  = match m h with
    | (Normal a, h') => f a h'
    | (Throw e, h') => (Throw e, h')
    end.
Proof. reflexivity. Qed.

Lemma get_prop_table h this t k :
  policy_table h this t ->
  get_prop (countryValidations this) k h = (Normal (t !! k), h).
Proof.
  unfold policy_table, get_prop. intros ->. reflexivity.
Qed.

Lemma set_prop_table h this t k v :
  policy_table h this t ->
  policy_table (exec (set_prop (countryValidations this) k v) h) this
    (<[k := v]> t).
Proof.
  unfold policy_table, exec, set_prop. cbn. intros Ht.
  rewrite lookup_alter_eq, Ht. reflexivity.
Qed.

Lemma delete_prop_table h this t k :
  policy_table h this t ->
  policy_table (exec (delete_prop (countryValidations this) k) h) this
    (delete k t).
Proof.
  unfold policy_table, exec, delete_prop. cbn. intros Ht.
  rewrite lookup_alter_eq, Ht. reflexivity.
Qed.

(** The names of [Object.prototype] are longer than a country code. *)
Lemma two_letters_not_inherited c :
  String.length c = 2 -> c ∉ Object_prototype.
Proof.
  intros Hlen Hin. unfold Object_prototype in Hin.
  repeat (apply elem_of_cons in Hin as [->|Hin]; [discriminate Hlen|]).
  by apply elem_of_nil in Hin.
Qed.

Lemma constructor_run h :
  constructor h
  = (Normal {| countryValidations := fresh (dom h);
               defaultCountry := "US" |},
     <[fresh (dom h) := default_validations]> h).
Proof. reflexivity. Qed.

End Store.

(** ** [parse] and [validate] *)

Section Parsing.

Context `{Libphonenumber}.
Implicit Types (h : heap) (this : PhoneNumberParser)
  (t : gmap string RegExp.t) (x c : string) (hint : option string).

(** [parse] reads the store, leaves it as it was and never throws. *)
Lemma parse_run h this t x hint :
  policy_table h this t ->
  parse this x hint h
  = (Normal
       (parsePhoneNumberFromString x (default (defaultCountry this) hint)
          ≫= screened t), h).
Proof.
  intros Ht. unfold parse, screened.
  destruct (parsePhoneNumberFromString _ _) as [p|]; [|reflexivity].
  cbn. destruct (isValid p); [|reflexivity]. cbn.
  rewrite bind_run, (get_prop_table _ _ _ _ Ht).
  destruct (t !! _) as [re|] eqn:Hk; [|reflexivity]. cbn.
  rewrite bind_run, (get_prop_table _ _ _ _ Ht), Hk. cbn.
  destruct (RegExp.test re _); reflexivity.
Qed.

Lemma validate_run h this t x c :
  policy_table h this t ->
  validate this x c h
  = match t !! c with
    | Some _ =>
        (Normal (bool_decide
                   (parsePhoneNumberFromString x c ≫= screened t ≠ None)),
         h)
    | None =>
        if bool_decide (c ∈ Object_prototype)
        then
          (Normal (bool_decide
                     (parsePhoneNumberFromString x c ≫= screened t ≠ None)),
           h)
        else
          (Throw (Error ("Validation rules not defined for country: " ++ c)),
           h)
    end.
Proof.
  intros Ht. unfold validate, truthy_prop.
  rewrite !bind_run, (get_prop_table _ _ _ _ Ht).
  destruct (t !! c) as [re|]; cbn.
  - rewrite bind_run, (parse_run _ _ _ _ _ Ht). reflexivity.
  - destruct (bool_decide (c ∈ Object_prototype)); cbn; [|reflexivity].
    rewrite bind_run, (parse_run _ _ _ _ _ Ht). reflexivity.
Qed.

End Parsing.

(** ** Regular expressions *)

Section Matching.

Import RegExp.
Local Open Scope list_scope.
Implicit Types (r : RegExp.t) (m : matcher) (k : cont) (s : list ascii)
  (b : bool).

Lemma m_rep_extensional m lo hi :
  extensional m -> extensional (m_rep m lo hi).
Proof.
  intros Hm. revert lo.
  induction hi as [|hi IH]; intros lo b s k k' Hk; destruct lo; cbn; auto.
  - rewrite (Hk b s). f_equal. apply Hm. intros. by apply IH.
  - apply Hm. intros. by apply IH.
Qed.

Lemma m_star_upto_extensional m fuel :
  extensional m -> extensional (m_star_upto m fuel).
Proof.
  intros Hm. induction fuel as [|fuel IH]; intros b s k k' Hk; cbn; auto.
  rewrite (Hk b s). f_equal. apply Hm. intros. f_equal. by apply IH.
Qed.

Lemma compile_extensional r : extensional (compile r).
Proof.
  induction r as [|c| | | |r1 IH1 r2 IH2|r1 IH1 r2 IH2|r IH lo hi];
    intros b s k k' Hk; cbn.
  - apply Hk.
  - destruct s; cbn; [done|]. by rewrite Hk.
  - destruct s; cbn; [done|]. by rewrite Hk.
  - unfold m_bol. by rewrite Hk.
  - destruct s; [apply Hk|done].
  - apply IH1. intros. by apply IH2.
  - unfold m_alt. by rewrite (IH1 _ _ _ _ Hk), (IH2 _ _ _ _ Hk).
  - destruct hi as [hi|].
    + by apply m_rep_extensional.
    + unfold m_seq. apply m_rep_extensional; [done|]. intros.
      by apply m_star_upto_extensional.
Qed.

(** After [^] nothing matches away from the start of the input. *)
Lemma opens_with_bol_fails r s k :
  opens_with_bol r = true -> compile r false s k = false.
Proof.
  revert s k. induction r; intros s k Hr; try discriminate; cbn in *.
  - reflexivity.
  - unfold m_seq. by apply IHr1.
Qed.

(** Before [$] the continuation is reached at the end of the input only. *)
Lemma closes_with_eol_at_end r b s k :
  closes_with_eol r = true ->
  compile r b s k = compile r b s (fun b' s' => at_end b' s' && k b' s').
Proof.
  revert b s k. induction r; intros b s k Hr; try discriminate; cbn in *.
  - by destruct s.
  - unfold m_seq. apply compile_extensional. intros. by apply IHr2.
Qed.

Lemma search_fails m s :
  (forall s' k, m false s' k = false) -> search m false s = false.
Proof.
  intros Hm. induction s as [|a s IH]; cbn; rewrite Hm; [done|]. apply IH.
Qed.

(** For an anchored pattern [test] is a match of the whole string. *)
Lemma test_anchored r str :
  anchored r = true -> test r str = full_match r str.
Proof.
  unfold anchored, test, full_match. intros [Hb He]%andb_prop.
  set (s := list_ascii_of_string str).
  assert (search (compile r) true s = compile r true s accept) as ->.
  { destruct s as [|a s']; cbn; [by rewrite orb_false_r|].
    rewrite search_fails; [by rewrite orb_false_r|].
    intros. by apply opens_with_bol_fails. }
  rewrite (closes_with_eol_at_end _ _ _ accept He).
  apply compile_extensional. intros b' s'. unfold accept.
  by rewrite andb_true_r.
Qed.

Lemma m_rep_monotone m lo hi : monotone m -> monotone (m_rep m lo hi).
Proof.
  intros Hm. revert lo.
  induction hi as [|hi IH]; intros lo b s k k' Hk; destruct lo; cbn; auto.
  - intros [Hr|Hr]%orb_prop; apply orb_true_iff; [left|right; auto].
    revert Hr. apply Hm. intros b' s'. by apply IH.
  - apply Hm. intros b' s'. by apply IH.
Qed.

Lemma m_star_upto_monotone m fuel :
  monotone m -> monotone (m_star_upto m fuel).
Proof.
  intros Hm. induction fuel as [|fuel IH]; intros b s k k' Hk; cbn; auto.
  intros [Hr|Hr]%orb_prop; apply orb_true_iff; [left|right; auto].
  revert Hr. apply Hm. intros b' s' [Hlt Hr]%andb_prop.
  apply andb_true_iff. split; [done|]. revert Hr. by apply IH.
Qed.

Lemma compile_monotone r : monotone (compile r).
Proof.
  induction r as [|c| | | |r1 IH1 r2 IH2|r1 IH1 r2 IH2|r IH lo hi];
    intros b s k k' Hk; cbn.
  - apply Hk.
  - destruct s; cbn; [done|]. intros [? ?]%andb_prop.
    apply andb_true_iff. auto.
  - destruct s; cbn; [done|]. intros [? ?]%andb_prop.
    apply andb_true_iff. auto.
  - unfold m_bol. intros [? ?]%andb_prop. apply andb_true_iff. auto.
  - destruct s; [apply Hk|done].
  - apply IH1. intros b' s'. by apply IH2.
  - unfold m_alt. intros [Hr|Hr]%orb_prop; apply orb_true_iff;
      [left; revert Hr; by apply IH1|right; revert Hr; by apply IH2].
  - destruct hi as [hi|].
    + by apply m_rep_monotone.
    + unfold m_seq. apply m_rep_monotone; [done|]. intros b' s'.
      by apply m_star_upto_monotone.
Qed.

(** A match of the whole string is found by [test]. *)
Lemma full_match_test r str :
  full_match r str = true -> test r str = true.
Proof.
  unfold test, full_match.
  generalize (list_ascii_of_string str) as s. intros s Hs.
  assert (compile r true s accept = true) as Ha.
  { revert Hs. by apply compile_monotone. }
  destruct s; cbn; by rewrite Ha.
Qed.

(** *** The five literals *)

Lemma digits_to_end lo hi b s :
  m_rep (m_char is_digit) lo hi b s (fun b' s' => m_eol b' s' at_end) = true
  <-> forallb is_digit s = true /\ lo <= length s <= hi.
Proof.
  revert lo b s.
  induction hi as [|hi IH]; intros [|lo] b [|a s]; cbn;
    rewrite ?orb_false_r, ?andb_true_iff, ?IH; cbn;
    intuition (try discriminate; try lia).
Qed.

Lemma literal_prefix (prefix : list ascii) (rest : list RegExp.t) b s k :
  rest <> [] ->
  (forall b1 b2 s', compile (seq rest) b1 s' k = compile (seq rest) b2 s' k) ->
  compile (seq (map Chr prefix ++ rest)) b s k = true
  <-> exists s', s = (prefix ++ s')%list /\ compile (seq rest) b s' k = true.
Proof.
  intros Hrest Hflag. revert b s.
  induction prefix as [|a prefix IH]; intros b s.
  - cbn. split; [eauto|]. by intros (s' & -> & Hs').
  - assert (compile (seq (map Chr (a :: prefix) ++ rest)) b s k
            = m_char (fun a' => bool_decide (a' = a)) b s
                (fun b' s' =>
                   compile (seq (map Chr prefix ++ rest)) b' s' k)) as ->.
    { cbn. destruct (map Chr prefix ++ rest) eqn:Hl; [|reflexivity].
      by apply app_eq_nil in Hl as [_ ?]. }
    destruct s as [|a' s]; cbn.
    + split; [done|]. by intros (s' & ? & _).
    + rewrite andb_true_iff, bool_decide_eq_true, IH. split.
      * intros (-> & s' & -> & Hs'). exists s'. split; [done|].
        by rewrite (Hflag b false).
      * intros (s' & [= -> ->] & Hs'). split; [done|]. exists s'.
        split; [done|]. by rewrite (Hflag false b).
Qed.

Lemma prefix_and_digits_anchored prefix lo hi :
  anchored (prefix_and_digits prefix lo hi) = true.
Proof.
  unfold anchored, prefix_and_digits.
  generalize (list_ascii_of_string prefix) as l. intros l.
  apply andb_true_iff. split.
  - cbn. by destruct (map Chr l ++ _).
  - assert (forall r, closes_with_eol
              (seq (r :: map Chr l ++ [Quant Digit lo (Some hi); Eol]))
            = true) as Hc; [|apply Hc].
    induction l as [|a l IH]; intros r; [reflexivity|].
    change (closes_with_eol
              (Seq r (seq (Chr a :: map Chr l
                           ++ [Quant Digit lo (Some hi); Eol]))) = true).
    cbn [closes_with_eol]. apply IH.
Qed.

(** What such a pattern accepts: the prefix followed by digits, between
    [lo] and [hi] of them, and nothing else. *)
Lemma test_prefix_and_digits prefix lo hi str :
  test (prefix_and_digits prefix lo hi) str = true
  <-> exists digits,
        list_ascii_of_string str
        = (list_ascii_of_string prefix ++ digits)%list
        /\ forallb is_digit digits = true
        /\ lo <= length digits <= hi.
Proof.
  rewrite test_anchored by apply prefix_and_digits_anchored.
  unfold full_match, prefix_and_digits.
  set (s := list_ascii_of_string str).
  set (l := list_ascii_of_string prefix).
  assert (compile (seq (Bol :: map Chr l
                        ++ [Quant Digit lo (Some hi); Eol])) true s at_end
          = compile (seq (map Chr l ++ [Quant Digit lo (Some hi); Eol]))
              true s at_end) as ->.
  { cbn. by destruct (map Chr l ++ _). }
  rewrite literal_prefix; [| done |].
  - split; intros (ds & Hs & Hds); exists ds; (split; [done|]);
      by apply (digits_to_end lo hi true ds).
  - intros b1 b2 s'. cbn.
    apply eq_true_iff_eq. by rewrite !digits_to_end.
Qed.

(** The literals of the constructor are of that shape. *)
Lemma default_patterns_shape :
  pattern_US = prefix_and_digits "+1" 10 10 /\
  pattern_UK = prefix_and_digits "+44" 10 10 /\
  pattern_UA = prefix_and_digits "+380" 9 9 /\
  pattern_FR = prefix_and_digits "+33" 9 9 /\
  pattern_DE = prefix_and_digits "+49" 10 11.
Proof. repeat split. Qed.

End Matching.

(** ** The claims *)

Section Claims.

Context `{Libphonenumber}.
Implicit Types (h : heap) (this : PhoneNumberParser)
  (t : gmap string RegExp.t) (x c d : string) (hint : option string)
  (p : PhoneNumber) (re : RegExp.t).

(** C1.  Whatever the input and the hint, [parse] returns [null] when the
    parser returns nothing or a number that is not valid.  Otherwise it
    returns the E.164 form when the detected country has an entry in the
    table whose pattern matches that form (found by [test]; a match of the
    whole string in particular), and also when the detected country has no
    entry.  The store is left as it was. *)
Theorem parse_verdict h this t x hint :
  policy_table h this t ->
  (parsePhoneNumberFromString x (default (defaultCountry this) hint) = None ->
   parse this x hint h = (Normal None, h)) /\
  (forall p,
     parsePhoneNumberFromString x (default (defaultCountry this) hint)
     = Some p ->
     (isValid p = false -> parse this x hint h = (Normal None, h)) /\
     (forall re,
        isValid p = true ->
        t !! property_key (country p) = Some re ->
        RegExp.test re (format_E164 p) = true
        \/ RegExp.full_match re (format_E164 p) = true ->
        parse this x hint h = (Normal (Some (format_E164 p)), h)) /\
     (isValid p = true ->
      t !! property_key (country p) = None ->
      parse this x hint h = (Normal (Some (format_E164 p)), h))).
Proof.
  intros Ht. rewrite (parse_run _ _ _ _ _ Ht). split.
  - intros ->. reflexivity.
  - intros p ->. cbn. unfold screened. repeat split.
    + intros ->. reflexivity.
    + intros re -> -> [Hre|Hre%full_match_test]; by rewrite Hre.
    + intros -> ->. reflexivity.
Qed.

(** C2, as the code has it.  When the detected country has an entry,
    [parse] returns the E.164 form only if the entry's [test] finds a match
    in it, which may be a match of a part of it, and returns [null] when
    [test] finds none.  For a pattern written between [^] and [$] a match
    found by [test] is a match of the whole string. *)
Theorem parse_by_test h this t x hint p re :
  policy_table h this t ->
  parsePhoneNumberFromString x (default (defaultCountry this) hint)
  = Some p ->
  t !! property_key (country p) = Some re ->
  (forall s,
     parse this x hint h = (Normal (Some s), h) ->
     s = format_E164 p /\ RegExp.test re s = true) /\
  (RegExp.test re (format_E164 p) = false ->
   parse this x hint h = (Normal None, h)) /\
  (anchored re = true ->
   forall s,
     parse this x hint h = (Normal (Some s), h) ->
     RegExp.full_match re s = true).
Proof.
  intros Ht Hp Hre. rewrite (parse_run _ _ _ _ _ Ht), Hp. cbn.
  unfold screened. rewrite Hre.
  assert (forall s,
            (if isValid p
             then if RegExp.test re (format_E164 p)
                  then Some (format_E164 p) else None
             else None) = Some s ->
            s = format_E164 p /\ RegExp.test re s = true) as Hs.
  { intros s. destruct (isValid p); [|done].
    destruct (RegExp.test re (format_E164 p)) eqn:Hm; [|done].
    by intros [= <-]. }
  split; [|split].
  - intros s [= Hr]. by apply Hs.
  - intros ->. by destruct (isValid p).
  - intros Ha s [= Hr]. destruct (Hs _ Hr) as [_ Hm].
    by rewrite <- test_anchored.
Qed.


(** C4.  When the country code has an entry in the table, [validate]
    returns [true] exactly when [parse], called with that code as the
    hint, returns a string and not [null]. *)
Theorem validate_iff_parse h this t x c :
  policy_table h this t ->
  is_Some (t !! c) ->
  exists (b : bool) (r : option string),
    validate this x c h = (Normal b, h) /\
    parse this x (Some c) h = (Normal r, h) /\
    (b = true <-> r <> None).
Proof.
  intros Ht [re Hc].
  rewrite (validate_run _ _ _ _ _ Ht), Hc, (parse_run _ _ _ _ _ Ht). cbn.
  eexists _, _. repeat split.
  - apply bool_decide_eq_true_1.
  - apply bool_decide_eq_true_2.
Qed.

(** C10.  [validate] looks its country code up in the table, and [parse]
    looks the detected country up: a valid number that the parser places in
    another country, where that country has no entry or its pattern
    accepts the number, makes [validate] return [true] for the code it was
    called with. *)
Theorem validate_other_country h this t x c p d :
  policy_table h this t ->
  is_Some (t !! c) ->
  parsePhoneNumberFromString x c = Some p ->
  isValid p = true ->
  country p = Some d ->
  d <> c ->
  t !! d = None
  \/ (exists re, t !! d = Some re /\ RegExp.test re (format_E164 p) = true) ->
  validate this x c h = (Normal true, h).
Proof.
  intros Ht [rc Hc] Hp Hv Hd _ Hpol.
  rewrite (validate_run _ _ _ _ _ Ht), Hc, Hp. cbn.
  unfold screened. rewrite Hv, Hd. cbn.
  destruct Hpol as [->|(re & -> & ->)]; reflexivity.
Qed.

End Claims.

(** ** The table *)

Section Table.

Implicit Types (h : heap) (this : PhoneNumberParser)
  (t : gmap string RegExp.t) (c k : string) (p v : RegExp.t).

(** C5, as the code has it.  [listSupportedCountries] returns the reference
    that the instance holds, and leaves the store alone: an assignment or a
    [delete] through what it returned changes the policy table as
    [addCountryValidation] and [removeCountryValidation] do. *)
Theorem listing_is_the_table h this t :
  policy_table h this t ->
  listSupportedCountries this h = (Normal (countryValidations this), h) /\
  (forall k v,
     (l ← listSupportedCountries this; set_prop l k v) h
     = addCountryValidation this k v h /\
     policy_table (exec (l ← listSupportedCountries this; set_prop l k v) h)
       this (<[k := v]> t)) /\
  (forall k,
     (l ← listSupportedCountries this; delete_prop l k) h
     = removeCountryValidation this k h /\
     policy_table (exec (l ← listSupportedCountries this; delete_prop l k) h)
       this (delete k t)).
Proof.
  intros Ht. split; [reflexivity|]. split; intros; (split; [reflexivity|]).
  - by apply set_prop_table.
  - by apply delete_prop_table.
Qed.

(** C6.  Two calls of [addCountryValidation] with the same code and pattern
    complete as one call does and leave the same store: the table of one
    call, which maps the code to the pattern. *)
Theorem add_twice h this t c p :
  policy_table h this t ->
  (addCountryValidation this c p;; addCountryValidation this c p) h
  = addCountryValidation this c p h /\
  result (addCountryValidation this c p) h = Normal tt /\
  policy_table (exec (addCountryValidation this c p) h) this (<[c := p]> t).
Proof.
  intros Ht. repeat split.
  - unfold addCountryValidation. rewrite bind_run. unfold set_prop.
    f_equal. apply map_eq. intros l.
    destruct (decide (countryValidations this = l)) as [<-|Hl].
    + rewrite !lookup_alter_eq.
      destruct (h !! _) as [o|]; cbn; [|done]. by rewrite insert_insert_eq.
    + by rewrite !lookup_alter_ne.
  - by apply set_prop_table.
Qed.

(** C7.  [removeCountryValidation] called twice with one code completes
    normally both times; the first call deletes the entry if there is one,
    the second leaves the store as it finds it. *)
Theorem remove_twice h this t c :
  policy_table h this t ->
  exists h1,
    removeCountryValidation this c h = (Normal tt, h1) /\
    policy_table h1 this (delete c t) /\
    delete c t !! c = None /\
    (forall k, k <> c -> delete c t !! k = t !! k) /\
    removeCountryValidation this c h1 = (Normal tt, h1).
Proof.
  intros Ht. eexists. split; [reflexivity|]. repeat split.
  - by apply delete_prop_table.
  - apply lookup_delete_eq.
  - intros k Hk. by apply lookup_delete_ne.
  - unfold removeCountryValidation, delete_prop. f_equal.
    apply map_eq. intros l.
    destruct (decide (countryValidations this = l)) as [<-|Hl].
    + rewrite !lookup_alter_eq.
      destruct (h !! _) as [o|]; cbn; [|done]. by rewrite delete_delete_eq.
    + by rewrite !lookup_alter_ne.
Qed.

(** C8.  After [addCountryValidation('CA', p)] the object that
    [listSupportedCountries] returns maps CA to [p]; after
    [removeCountryValidation('CA')] it has no CA. *)
Theorem add_remove_listing h this t p :
  policy_table h this t ->
  (exists l h1 t1,
     (addCountryValidation this "CA" p;; listSupportedCountries this) h
     = (Normal l, h1) /\
     h1 !! l = Some t1 /\ t1 !! "CA" = Some p) /\
  (exists l h2 t2,
     (addCountryValidation this "CA" p;;
      removeCountryValidation this "CA";;
      listSupportedCountries this) h
     = (Normal l, h2) /\
     h2 !! l = Some t2 /\ t2 !! "CA" = None).
Proof.
  intros Ht. split.
  - eexists _, _, _. split; [reflexivity|]. split.
    + exact (set_prop_table h this t "CA" p Ht).
    + apply lookup_insert_eq.
  - eexists _, _, _. split; [reflexivity|]. split.
    + exact (delete_prop_table _ this _ "CA"
               (set_prop_table h this t "CA" p Ht)).
    + apply lookup_delete_eq.
Qed.

(** C9.  The constructor allocates the policy object with five entries and
    no other: US, UK, UA, FR and DE, whose patterns read [^\+1\d{10}$],
    [^\+44\d{10}$], [^\+380\d{9}$], [^\+33\d{9}$] and [^\+49\d{10,11}$].
    The object is new, and the rest of the store is as before. *)
Theorem constructor_table h :
  exists this h1,
    constructor h = (Normal this, h1) /\
    policy_table h1 this default_validations /\
    default_validations
    = list_to_map [("US", pattern_US); ("UK", pattern_UK);
                   ("UA", pattern_UA); ("FR", pattern_FR);
                   ("DE", pattern_DE)] /\
    RegExp.source <$> default_validations
    = list_to_map [("US", "^\+1\d{10}$"); ("UK", "^\+44\d{10}$");
                   ("UA", "^\+380\d{9}$"); ("FR", "^\+33\d{9}$");
                   ("DE", "^\+49\d{10,11}$")] /\
    dom default_validations = {["US"; "UK"; "UA"; "FR"; "DE"]} /\
    size default_validations = 5 /\
    h !! countryValidations this = None /\
    (forall l, l <> countryValidations this -> h1 !! l = h !! l).
Proof.
  eexists _, _. rewrite constructor_run. split; [reflexivity|].
  split; [apply lookup_insert_eq|].
  do 4 (split; [by vm_compute|]). cbn. split.
  - apply not_elem_of_dom, is_fresh.
  - intros l Hl. by apply lookup_insert_ne.
Qed.

End Table.

(** ** The example run

    The theorems at the calls of the example run, with the sample parser in
    the store that the constructor leaves. *)

Lemma sample_store_table :
  policy_table Sample.store Sample.this default_validations.
Proof. reflexivity. Qed.

Lemma parse_verdict_sample :
  policy_table Sample.store Sample.this default_validations /\
  @parse Sample.parser Sample.this "abcdefgh" (Some "FR") Sample.store
  = (Normal None, Sample.store) /\
  @parse Sample.parser Sample.this "+1123" None Sample.store
  = (Normal None, Sample.store) /\
  @parse Sample.parser Sample.this "1234567890" None Sample.store
  = (Normal (Some "+11234567890"), Sample.store) /\
  @parse Sample.parser Sample.this "0671234567" (Some "UA") Sample.store
  = (Normal (Some "+380671234567"), Sample.store) /\
  @parse Sample.parser Sample.this "+442071838750" (Some "UK") Sample.store
  = (Normal (Some "+442071838750"), Sample.store).
Proof.
  pose proof sample_store_table as Ht.
  split; [exact Ht|]. split; [|split; [|split; [|split]]].
  - apply (proj1 (@parse_verdict Sample.parser _ _ _ "abcdefgh" (Some "FR") Ht)).
    reflexivity.
  - apply (proj2 (@parse_verdict Sample.parser _ _ _ "+1123" None Ht)
             {| country := None; isValid := false; format_E164 := "+1123" |});
      reflexivity.
  - apply (proj2 (@parse_verdict Sample.parser _ _ _ "1234567890" None Ht)
             (Sample.number "US" "+11234567890") eq_refl)
      with (re := pattern_US); [reflexivity|reflexivity|].
    left. reflexivity.
  - apply (proj2 (@parse_verdict Sample.parser _ _ _ "0671234567" (Some "UA") Ht)
             (Sample.number "UA" "+380671234567") eq_refl)
      with (re := pattern_UA); [reflexivity|reflexivity|].
    right. reflexivity.
  - apply (proj2 (@parse_verdict Sample.parser _ _ _ "+442071838750"
                    (Some "UK") Ht)
             (Sample.number "GB" "+442071838750") eq_refl);
      reflexivity.
Defined.

(** C2 as the spec has it fails: with [/\d{10}/] entered for CA, [parse]
    returns [+15145551234], where the pattern matches the last ten
    characters and not the whole string. *)
Lemma parse_accepts_partial_match :
  policy_table
    (exec (addCountryValidation Sample.this "CA" Sample.ten_digits)
       Sample.store)
    Sample.this (<["CA" := Sample.ten_digits]> default_validations) /\
  @parsePhoneNumberFromString Sample.parser "+15145551234" "CA"
  = Some (Sample.number "CA" "+15145551234") /\
  @parse Sample.parser Sample.this "+15145551234" (Some "CA")
    (exec (addCountryValidation Sample.this "CA" Sample.ten_digits)
       Sample.store)
  = (Normal (Some "+15145551234"),
     exec (addCountryValidation Sample.this "CA" Sample.ten_digits)
       Sample.store) /\
  RegExp.test Sample.ten_digits "+15145551234" = true /\
  RegExp.full_match Sample.ten_digits "+15145551234" = false.
Proof. repeat split; by vm_compute. Qed.

Lemma parse_by_test_sample :
  anchored pattern_US = true /\
  (forall s,
     @parse Sample.parser Sample.this "1234567890" (Some "US") Sample.store
     = (Normal (Some s), Sample.store) ->
     RegExp.full_match pattern_US s = true).
Proof.
  split; [reflexivity|].
  apply (@parse_by_test Sample.parser _ _ _ "1234567890" (Some "US")
           (Sample.number "US" "+11234567890") pattern_US
           sample_store_table eq_refl eq_refl).
  reflexivity.
Defined.



Lemma validate_iff_parse_sample :
  exists (b : bool) (r : option string),
    @validate Sample.parser Sample.this "0671234567" "UA" Sample.store
    = (Normal b, Sample.store) /\
    @parse Sample.parser Sample.this "0671234567" (Some "UA") Sample.store
    = (Normal r, Sample.store) /\
    (b = true <-> r <> None).
Proof.
  apply (@validate_iff_parse Sample.parser _ _ default_validations
           "0671234567" "UA" sample_store_table).
  exists pattern_UA. reflexivity.
Defined.

Lemma validate_other_country_sample :
  @validate Sample.parser Sample.this "+33612345678" "US" Sample.store
  = (Normal true, Sample.store) /\
  @validate Sample.parser Sample.this "+442071838750" "US" Sample.store
  = (Normal true, Sample.store).
Proof.
  split.
  - apply (@validate_other_country Sample.parser _ _ default_validations
             "+33612345678" "US" (Sample.number "FR" "+33612345678") "FR"
             sample_store_table).
    + exists pattern_US. reflexivity.
    + reflexivity.
    + reflexivity.
    + reflexivity.
    + discriminate.
    + right. exists pattern_FR. split; reflexivity.
  - apply (@validate_other_country Sample.parser _ _ default_validations
             "+442071838750" "US" (Sample.number "GB" "+442071838750") "GB"
             sample_store_table).
    + exists pattern_US. reflexivity.
    + reflexivity.
    + reflexivity.
    + reflexivity.
    + discriminate.
    + left. reflexivity.
Defined.

(** C5 as the spec has it fails: [delete] on the object that
    [listSupportedCountries] returned takes US out of the policy table, and
    the [validate] that returned [true] before it throws after it; an
    assignment through the same object makes [parse] reject the number it
    returned before. *)
Lemma listing_mutation_reaches_table :
  @validate Sample.parser Sample.this "+11234567890" "US" Sample.store
  = (Normal true, Sample.store) /\
  @parse Sample.parser Sample.this "+11234567890" (Some "US") Sample.store
  = (Normal (Some "+11234567890"), Sample.store) /\
  result
    (l ← listSupportedCountries Sample.this;
     delete_prop l "US";;
     @validate Sample.parser Sample.this "+11234567890" "US")
    Sample.store
  = Throw (Error "Validation rules not defined for country: US") /\
  result
    (l ← listSupportedCountries Sample.this;
     set_prop l "US" pattern_FR;;
     @parse Sample.parser Sample.this "+11234567890" (Some "US"))
    Sample.store
  = Normal None.
Proof. repeat split; by vm_compute. Qed.

Lemma listing_is_the_table_sample :
  listSupportedCountries Sample.this Sample.store
  = (Normal (countryValidations Sample.this), Sample.store) /\
  policy_table
    (exec (l ← listSupportedCountries Sample.this; delete_prop l "US")
       Sample.store)
    Sample.this (delete "US" default_validations).
Proof.
  destruct (listing_is_the_table _ _ _ sample_store_table) as (Hl & _ & Hd).
  split; [exact Hl|]. apply Hd.
Defined.

Lemma add_twice_sample :
  (addCountryValidation Sample.this "CA" pattern_US;;
   addCountryValidation Sample.this "CA" pattern_US) Sample.store
  = addCountryValidation Sample.this "CA" pattern_US Sample.store /\
  result (addCountryValidation Sample.this "CA" pattern_US) Sample.store
  = Normal tt /\
  policy_table
    (exec (addCountryValidation Sample.this "CA" pattern_US) Sample.store)
    Sample.this (<["CA" := pattern_US]> default_validations).
Proof.
  apply (add_twice _ _ _ "CA" pattern_US sample_store_table).
Defined.

Lemma remove_twice_sample :
  exists h1,
    removeCountryValidation Sample.this "FR" Sample.store = (Normal tt, h1) /\
    policy_table h1 Sample.this (delete "FR" default_validations) /\
    delete "FR" default_validations !! "FR" = None /\
    (forall k, k <> "FR" ->
       delete "FR" default_validations !! k = default_validations !! k) /\
    removeCountryValidation Sample.this "FR" h1 = (Normal tt, h1).
Proof.
  apply (remove_twice _ _ _ "FR" sample_store_table).
Defined.

Lemma add_remove_listing_sample :
  (exists l h1 t1,
     (addCountryValidation Sample.this "CA" pattern_US;;
      listSupportedCountries Sample.this) Sample.store
     = (Normal l, h1) /\
     h1 !! l = Some t1 /\ t1 !! "CA" = Some pattern_US) /\
  (exists l h2 t2,
     (addCountryValidation Sample.this "CA" pattern_US;;
      removeCountryValidation Sample.this "CA";;
      listSupportedCountries Sample.this) Sample.store
     = (Normal l, h2) /\
     h2 !! l = Some t2 /\ t2 !! "CA" = None).
Proof.
  apply (add_remove_listing _ _ _ pattern_US sample_store_table).
Defined.

(** * Further properties of the class *)

(** ** What [parse] returns *)

Section ParseResults.

Context `{Libphonenumber}.
Implicit Types (h : heap) (this : PhoneNumberParser)
  (t : gmap string RegExp.t) (x c : string) (hint : option string)
  (p : PhoneNumber) (re : RegExp.t).

(** [parse] never throws and never writes to the store.  A string it returns
    is the E.164 form of a number that the parser produced and judged valid,
    and the pattern of the detected country, when the table has one, finds a
    match in it. *)
Theorem parse_sound h this t x hint :
  policy_table h this t ->
  exists r : option string,
    parse this x hint h = (Normal r, h) /\
    (forall s,
       r = Some s ->
       exists p,
         parsePhoneNumberFromString x (default (defaultCountry this) hint)
         = Some p /\
         isValid p = true /\
         s = format_E164 p /\
         (forall re,
            t !! property_key (country p) = Some re ->
            RegExp.test re s = true)).
Proof.
  intros Ht. rewrite (parse_run _ _ _ _ _ Ht). eexists. split; [reflexivity|].
  intros s. destruct (parsePhoneNumberFromString _ _) as [p|]; [|done].
  cbn. unfold screened. destruct (isValid p) eqn:Hv; [|done].
  destruct (t !! _) as [re|] eqn:Hre.
  - destruct (RegExp.test re (format_E164 p)) eqn:Hm; [|done].
    intros [= <-]. exists p. do 3 (split; [done|]).
    intros re' Hre'. by simplify_eq.
  - intros [= <-]. exists p. do 3 (split; [done|]).
    intros re' Hre'. by simplify_eq.
Qed.

(** A valid number for which the parser reports no country is looked up
    under the key [undefined]: an entry of that name decides, and without
    one the number is returned. *)
Theorem parse_without_country h this t x hint p :
  policy_table h this t ->
  parsePhoneNumberFromString x (default (defaultCountry this) hint) = Some p ->
  isValid p = true ->
  country p = None ->
  parse this x hint h
  = (Normal
       match t !! "undefined" with
       | Some re =>
           if RegExp.test re (format_E164 p) then Some (format_E164 p)
           else None
       | None => Some (format_E164 p)
       end, h).
Proof.
  intros Ht Hp Hv Hc. rewrite (parse_run _ _ _ _ _ Ht), Hp. cbn.
  unfold screened. by rewrite Hv, Hc.
Qed.

(** An entry entered or removed for a code that is not the detected country
    of the input leaves the answer of [parse] as it was. *)
Theorem parse_other_entry h this t x hint c re :
  policy_table h this t ->
  (forall p,
     parsePhoneNumberFromString x (default (defaultCountry this) hint)
     = Some p ->
     property_key (country p) <> c) ->
  result (addCountryValidation this c re;; parse this x hint) h
  = result (parse this x hint) h /\
  result (removeCountryValidation this c;; parse this x hint) h
  = result (parse this x hint) h.
Proof.
  intros Ht Hc. unfold result.
  rewrite !bind_run. cbn.
  rewrite (parse_run _ _ _ _ _ Ht).
  rewrite (parse_run _ _ _ _ _ (set_prop_table _ _ _ c re Ht)).
  rewrite (parse_run _ _ _ _ _ (delete_prop_table _ _ _ c Ht)). cbn.
  destruct (parsePhoneNumberFromString _ _) as [p|]; [|done].
  specialize (Hc p eq_refl). cbn. unfold screened.
  by rewrite lookup_insert_ne, lookup_delete_ne.
Qed.

(** Removing an entry never turns an accepted number into a rejected one. *)
Theorem remove_keeps_accepted h this t x hint c s :
  policy_table h this t ->
  parse this x hint h = (Normal (Some s), h) ->
  result (removeCountryValidation this c;; parse this x hint) h
  = Normal (Some s).
Proof.
  intros Ht. unfold result. rewrite bind_run. cbn.
  rewrite (parse_run _ _ _ _ _ Ht).
  rewrite (parse_run _ _ _ _ _ (delete_prop_table _ _ _ c Ht)). cbn.
  destruct (parsePhoneNumberFromString _ _) as [p|]; [|done].
  cbn. unfold screened. destruct (isValid p); [|done].
  destruct (decide (c = property_key (country p))) as [->|Hc].
  - rewrite lookup_delete_eq.
    destruct (t !! _) as [re|]; [destruct (RegExp.test re _)|];
      intros [= Hs]; by rewrite ?Hs.
  - rewrite lookup_delete_ne by done. by intros [= ->].
Qed.

(** An entry for a code that had none never turns a rejected number into an
    accepted one: [parse] answers as before, or [null]. *)
Theorem add_only_rejects h this t x hint c re :
  policy_table h this t ->
  t !! c = None ->
  result (addCountryValidation this c re;; parse this x hint) h
  = result (parse this x hint) h
  \/ result (addCountryValidation this c re;; parse this x hint) h
     = Normal None.
Proof.
  intros Ht Hc. unfold result. rewrite bind_run. cbn.
  rewrite (parse_run _ _ _ _ _ Ht).
  rewrite (parse_run _ _ _ _ _ (set_prop_table _ _ _ c re Ht)). cbn.
  destruct (parsePhoneNumberFromString _ _) as [p|]; [|by left].
  cbn. unfold screened. destruct (isValid p); [|by left].
  destruct (decide (c = property_key (country p))) as [->|Hne].
  - rewrite lookup_insert_eq, Hc.
    destruct (RegExp.test re _); [by left|by right].
  - rewrite lookup_insert_ne by done. by left.
Qed.

End ParseResults.

(** ** How the table operations compose *)

Section TableAlgebra.

Implicit Types (h : heap) (this : PhoneNumberParser)
  (t : gmap string RegExp.t) (c k : string) (p v : RegExp.t).

Lemma alter_alter_table h this
    (f g : gmap string RegExp.t -> gmap string RegExp.t) :
  alter f (countryValidations this) (alter g (countryValidations this) h)
  = alter (fun o => f (g o)) (countryValidations this) h.
Proof.
  apply map_eq. intros l.
  destruct (decide (countryValidations this = l)) as [<-|Hl].
  - rewrite !lookup_alter_eq. by destruct (h !! _).
  - by rewrite !lookup_alter_ne.
Qed.

Lemma alter_table_ext h this t
    (f g : gmap string RegExp.t -> gmap string RegExp.t) :
  policy_table h this t ->
  f t = g t ->
  alter f (countryValidations this) h = alter g (countryValidations this) h.
Proof.
  unfold policy_table. intros Ht Hfg. apply map_eq. intros l.
  destruct (decide (countryValidations this = l)) as [<-|Hl].
  - rewrite !lookup_alter_eq, Ht. cbn. by rewrite Hfg.
  - by rewrite !lookup_alter_ne.
Qed.

(** [addCountryValidation] and [removeCountryValidation] write one entry of
    the instance's own table: the other entries and the other objects of the
    store are as before. *)
Theorem table_frame h this t c p :
  policy_table h this t ->
  (exists t1,
     policy_table (exec (addCountryValidation this c p) h) this t1 /\
     forall k, k <> c -> t1 !! k = t !! k) /\
  (exists t2,
     policy_table (exec (removeCountryValidation this c) h) this t2 /\
     forall k, k <> c -> t2 !! k = t !! k) /\
  (forall l,
     l <> countryValidations this ->
     exec (addCountryValidation this c p) h !! l = h !! l /\
     exec (removeCountryValidation this c) h !! l = h !! l).
Proof.
  intros Ht. split; [|split].
  - exists (<[c := p]> t). split; [by apply set_prop_table|].
    intros k Hk. by apply lookup_insert_ne.
  - exists (delete c t). split; [by apply delete_prop_table|].
    intros k Hk. by apply lookup_delete_ne.
  - intros l Hl. unfold exec, addCountryValidation, removeCountryValidation.
    cbn. by rewrite !lookup_alter_ne.
Qed.

(** The later of two patterns entered for one code is the one kept. *)
Theorem add_overwrites h this t c p1 p2 :
  policy_table h this t ->
  (addCountryValidation this c p1;; addCountryValidation this c p2) h
  = addCountryValidation this c p2 h /\
  policy_table (exec (addCountryValidation this c p2) h) this
    (<[c := p2]> t).
Proof.
  intros Ht. split; [|by apply set_prop_table].
  unfold addCountryValidation. rewrite bind_run. unfold set_prop.
  f_equal. rewrite alter_alter_table.
  apply (alter_table_ext _ _ _ _ _ Ht), insert_insert_eq.
Qed.

(** The own properties after two assignments under different keys do not
    depend on which came first.  (The store records the properties of an
    object and not the order in which its keys are listed.) *)
Lemma set_prop_order h this t c1 c2 p1 p2 :
  policy_table h this t ->
  c1 <> c2 ->
  alter (insert c2 p2) (countryValidations this)
    (alter (insert c1 p1) (countryValidations this) h)
  = alter (insert c1 p1) (countryValidations this)
      (alter (insert c2 p2) (countryValidations this) h).
Proof.
  intros Ht Hc. rewrite !alter_alter_table.
  apply (alter_table_ext _ _ _ _ _ Ht). by apply insert_insert_ne.
Qed.

(** After a [delete] the assignment under the same key leaves the own
    properties that the assignment alone leaves. *)
Lemma delete_set_prop h this t c p :
  policy_table h this t ->
  alter (insert c p) (countryValidations this)
    (alter (delete c) (countryValidations this) h)
  = alter (insert c p) (countryValidations this) h.
Proof.
  intros Ht. rewrite alter_alter_table.
  apply (alter_table_ext _ _ _ _ _ Ht), insert_delete_eq.
Qed.


(** Two instances have two tables: what one enters or removes does not
    reach the other. *)
Theorem instances_independent h :
  exists a b h2,
    (a ← constructor; b ← constructor; mret (a, b)) h = (Normal (a, b), h2) /\
    countryValidations a <> countryValidations b /\
    policy_table h2 a default_validations /\
    policy_table h2 b default_validations /\
    forall c p,
      policy_table (exec (addCountryValidation a c p) h2) b
        default_validations /\
      policy_table (exec (removeCountryValidation a c) h2) b
        default_validations.
Proof.
  set (la := fresh (dom h)).
  set (h1 := <[la := default_validations]> h).
  set (lb := fresh (dom h1)).
  assert (la <> lb) as Hab.
  { intros Heq. apply (is_fresh (dom h1)). fold lb. rewrite <- Heq.
    apply elem_of_dom. exists default_validations. apply lookup_insert_eq. }
  exists {| countryValidations := la; defaultCountry := "US" |},
         {| countryValidations := lb; defaultCountry := "US" |},
         (<[lb := default_validations]> h1).
  split; [reflexivity|]. split; [exact Hab|].
  unfold policy_table, exec, addCountryValidation, removeCountryValidation.
  cbn. split; [|split].
  - rewrite lookup_insert_ne by done. apply lookup_insert_eq.
  - apply lookup_insert_eq.
  - intros c p. rewrite !lookup_alter_ne by done.
    split; apply lookup_insert_eq.
Qed.

End TableAlgebra.

(** ** [validate] after the table operations *)

Section ValidateAfter.

Context `{Libphonenumber}.
Implicit Types (h : heap) (this : PhoneNumberParser)
  (t : gmap string RegExp.t) (x c : string) (p : RegExp.t).


(** The answers of [parse] and [validate], and the entry read under any
    key, are the same after entries for two different codes whichever was
    entered first.  (The order in which the table lists its keys is not:
    it follows the calls.) *)
Theorem add_order_same_answers h this t c1 c2 p1 p2 x hint c k :
  policy_table h this t ->
  c1 <> c2 ->
  c1 <> "__proto__" ->
  c2 <> "__proto__" ->
  result (addCountryValidation this c1 p1;;
          addCountryValidation this c2 p2;;
          get_prop (countryValidations this) k) h
  = result (addCountryValidation this c2 p2;;
            addCountryValidation this c1 p1;;
            get_prop (countryValidations this) k) h /\
  result (addCountryValidation this c1 p1;;
          addCountryValidation this c2 p2;;
          parse this x hint) h
  = result (addCountryValidation this c2 p2;;
            addCountryValidation this c1 p1;;
            parse this x hint) h /\
  result (addCountryValidation this c1 p1;;
          addCountryValidation this c2 p2;;
          validate this x c) h
  = result (addCountryValidation this c2 p2;;
            addCountryValidation this c1 p1;;
            validate this x c) h.
Proof.
  intros Ht Hc _ _. unfold result, addCountryValidation, set_prop.
  rewrite !bind_run. cbn [fst snd].
  by rewrite (set_prop_order _ _ _ _ _ p1 p2 Ht Hc).
Qed.

(** Removing the entry of a code before entering a pattern for it changes
    no answer of [parse] or [validate] and no entry read: they are those
    that entering the pattern alone gives.  (The place of the code among
    the keys that the table lists is not: a removed code is listed last.) *)
Theorem remove_add_same_answers h this t c p x hint c' k :
  policy_table h this t ->
  c <> "__proto__" ->
  result (removeCountryValidation this c;;
          addCountryValidation this c p;;
          get_prop (countryValidations this) k) h
  = result (addCountryValidation this c p;;
            get_prop (countryValidations this) k) h /\
  result (removeCountryValidation this c;;
          addCountryValidation this c p;;
          parse this x hint) h
  = result (addCountryValidation this c p;; parse this x hint) h /\
  result (removeCountryValidation this c;;
          addCountryValidation this c p;;
          validate this x c') h
  = result (addCountryValidation this c p;; validate this x c') h.
Proof.
  intros Ht _.
  unfold result, addCountryValidation, removeCountryValidation, set_prop,
    delete_prop.
  rewrite !bind_run. cbn [fst snd].
  by rewrite (delete_set_prop _ _ _ _ p Ht).
Qed.

(** Once a pattern is entered for a code, [validate] does not throw for that
    code: it returns whether [parse] returns a string. *)
Theorem validate_after_add h this t x c p :
  policy_table h this t ->
  exists (b : bool) (r : option string),
    (addCountryValidation this c p;; validate this x c) h
    = (Normal b, exec (addCountryValidation this c p) h) /\
    (addCountryValidation this c p;; parse this x (Some c)) h
    = (Normal r, exec (addCountryValidation this c p) h) /\
    (b = true <-> r <> None).
Proof.
  intros Ht. rewrite !bind_run. cbn.
  pose proof (set_prop_table _ _ _ c p Ht) as Ht'.
  rewrite (validate_run _ _ _ _ _ Ht'), (parse_run _ _ _ _ _ Ht').
  rewrite lookup_insert_eq. cbn. eexists _, _.
  split; [reflexivity|]. split; [reflexivity|].
  split; [apply bool_decide_eq_true_1|apply bool_decide_eq_true_2].
Qed.

(** On a new instance [validate] throws exactly for the codes that are
    none of US, UK, UA, FR and DE and name no member of
    [Object.prototype]. *)
Theorem validate_new_instance h x c :
  (exists e h1,
     (this ← constructor; validate this x c) h = (Throw e, h1))
  <-> (c ∉ ["US"; "UK"; "UA"; "FR"; "DE"]) /\ (c ∉ Object_prototype).
Proof.
  rewrite bind_run, constructor_run.
  assert (policy_table (<[fresh (dom h) := default_validations]> h)
            {| countryValidations := fresh (dom h); defaultCountry := "US" |}
            default_validations) as Ht by apply lookup_insert_eq.
  rewrite (validate_run _ _ _ _ _ Ht).
  assert (is_Some (default_validations !! c)
          <-> c ∈ ["US"; "UK"; "UA"; "FR"; "DE"]) as Hdom.
  { rewrite <- elem_of_dom.
    assert (dom default_validations
            = list_to_set ["US"; "UK"; "UA"; "FR"; "DE"])
      as -> by (by vm_compute).
    apply elem_of_list_to_set. }
  destruct (default_validations !! c) as [re|] eqn:Hc.
  - split.
    + by intros (e & h1 & [= ]).
    + intros [Hn _]. destruct Hn. apply Hdom. eauto.
  - destruct (bool_decide (c ∈ Object_prototype)) eqn:Hname.
    + apply bool_decide_eq_true_1 in Hname. split.
      * by intros (e & h1 & [= ]).
      * by intros [_ Hn].
    + apply bool_decide_eq_false_1 in Hname. split; [|eauto].
      intros _. split; [|done].
      intros Hin. apply Hdom in Hin. by destruct Hin.
Qed.

End ValidateAfter.

(** ** The default patterns *)

(** What the five patterns of the constructor accept, as its comments say:
    the calling code and then ten digits for US and UK, nine for UA and FR,
    ten or eleven for DE, and no other string. *)
Theorem default_patterns_accept str :
  (RegExp.test pattern_US str = true <-> prefix_then_digits "+1" 10 10 str) /\
  (RegExp.test pattern_UK str = true <-> prefix_then_digits "+44" 10 10 str) /\
  (RegExp.test pattern_UA str = true <-> prefix_then_digits "+380" 9 9 str) /\
  (RegExp.test pattern_FR str = true <-> prefix_then_digits "+33" 9 9 str) /\
  (RegExp.test pattern_DE str = true <-> prefix_then_digits "+49" 10 11 str).
Proof.
  split; [exact (test_prefix_and_digits "+1" 10 10 str)|].
  split; [exact (test_prefix_and_digits "+44" 10 10 str)|].
  split; [exact (test_prefix_and_digits "+380" 9 9 str)|].
  split; [exact (test_prefix_and_digits "+33" 9 9 str)|].
  exact (test_prefix_and_digits "+49" 10 11 str).
Qed.

(** ** The module body *)

Section ModuleBody.

Context `{Libphonenumber}.

Lemma run_bind {A B : Type} (m : Run A) (f : A -> Run B) st :
  (m ≫= f) st
  = match m st with
    | (Normal a, st') => f a st'
    | (Throw e, st') => (Throw e, st')
    end.
Proof. reflexivity. Qed.

Lemma lift_parse h out this t x hint :
  policy_table h this t ->
  lift (parse this x hint) (h, out)
  = (Normal
       (parsePhoneNumberFromString x (default (defaultCountry this) hint)
          ≫= screened t), (h, out)).
Proof. intros Ht. unfold lift. cbn. by rewrite (parse_run _ _ _ _ _ Ht). Qed.

Lemma lift_validate h out this t x c :
  policy_table h this t ->
  is_Some (t !! c) ->
  lift (validate this x c) (h, out)
  = (Normal (bool_decide
               (parsePhoneNumberFromString x c ≫= screened t ≠ None)),
     (h, out)).
Proof.
  intros Ht [re Hc]. unfold lift. cbn.
  by rewrite (validate_run _ _ _ _ _ Ht), Hc.
Qed.

(** Whatever the parser answers, the module body prints eleven lines, the
    last of them the table object, and then throws at the call of [validate]
    for FR, whose entry it has just removed: [module.exports] is not
    reached.  The table is then the default one with CA and without FR. *)
Theorem module_body_throws h out :
  exists this h1 out1,
    module_body (h, out)
    = (Throw (Error "Validation rules not defined for country: FR"),
       (h1, (out ++ out1)%list)) /\
    length out1 = 11 /\
    last out1 = Some (LogObject (countryValidations this)) /\
    policy_table h1 this
      (delete "FR" (<["CA" := pattern_US]> default_validations)).
Proof.
  unfold module_body.
  rewrite run_bind. unfold lift at 1. cbn [fst snd]. rewrite constructor_run.
  set (this := {| countryValidations := fresh (dom h);
                  defaultCountry := "US" |}).
  set (h0 := <[fresh (dom h) := default_validations]> h).
  assert (policy_table h0 this default_validations) as Ht
    by apply lookup_insert_eq.
  do 5 (rewrite run_bind, (lift_parse _ _ _ _ _ _ Ht);
        rewrite run_bind; unfold console_log at 1; cbn [fst snd]).
  do 4 (rewrite run_bind, (lift_validate _ _ _ _ _ _ Ht) by (by eexists);
        rewrite run_bind; unfold console_log at 1; cbn [fst snd]).
  rewrite run_bind. unfold lift at 1. cbn [fst snd].
  pose proof (set_prop_table _ _ _ "CA" pattern_US Ht) as Ht1.
  unfold exec in Ht1. cbn [fst snd addCountryValidation set_prop] in *.
  rewrite run_bind, (lift_validate _ _ _ _ _ _ Ht1) by (by eexists).
  rewrite run_bind; unfold console_log at 1; cbn [fst snd].
  rewrite run_bind. unfold lift at 1, listSupportedCountries.
  unfold mret at 1, JS_ret. cbn [fst snd].
  rewrite run_bind; unfold console_log at 1; cbn [fst snd].
  rewrite run_bind. unfold lift at 1. cbn [fst snd].
  pose proof (delete_prop_table _ _ _ "FR" Ht1) as Ht2.
  unfold exec in Ht2. cbn [fst snd removeCountryValidation delete_prop] in *.
  rewrite run_bind. unfold lift at 1. cbn [fst snd].
  rewrite (validate_run _ _ _ _ _ Ht2), lookup_delete_eq.
  rewrite bool_decide_eq_false_2
    by (by apply two_letters_not_inherited).
  eexists this, _, _. split; [rewrite <- !app_assoc; reflexivity|].
  split; [reflexivity|]. split; [reflexivity|]. exact Ht2.
Qed.

End ModuleBody.

(** ** The further properties on the sample *)

Lemma parse_sound_sample :
  exists r : option string,
    @parse Sample.parser Sample.this "0671234567" (Some "UA") Sample.store
    = (Normal r, Sample.store) /\
    (forall s,
       r = Some s ->
       exists p,
         @parsePhoneNumberFromString Sample.parser "0671234567" "UA" = Some p /\
         isValid p = true /\
         s = format_E164 p /\
         (forall re,
            default_validations !! property_key (country p) = Some re ->
            RegExp.test re s = true)).
Proof.
  exact (@parse_sound Sample.parser _ _ _ "0671234567" (Some "UA")
           sample_store_table).
Defined.

Lemma parse_without_country_sample :
  @parse Freephone.parser Sample.this "+80012345678" None Sample.store
  = (Normal (Some "+80012345678"), Sample.store) /\
  @parse Freephone.parser Sample.this "+80012345678" None
    (exec (addCountryValidation Sample.this "undefined" pattern_US)
       Sample.store)
  = (Normal None,
     exec (addCountryValidation Sample.this "undefined" pattern_US)
       Sample.store).
Proof.
  split.
  - exact (@parse_without_country Freephone.parser _ _ _ "+80012345678" None
             Freephone.number sample_store_table eq_refl eq_refl eq_refl).
  - exact (@parse_without_country Freephone.parser _ _ _ "+80012345678" None
             Freephone.number
             (set_prop_table _ _ _ "undefined" pattern_US sample_store_table)
             eq_refl eq_refl eq_refl).
Defined.

Lemma parse_other_entry_sample :
  result (addCountryValidation Sample.this "CA" Sample.ten_digits;;
          @parse Sample.parser Sample.this "0671234567" (Some "UA"))
    Sample.store
  = result (@parse Sample.parser Sample.this "0671234567" (Some "UA"))
      Sample.store /\
  result (removeCountryValidation Sample.this "CA";;
          @parse Sample.parser Sample.this "0671234567" (Some "UA"))
    Sample.store
  = result (@parse Sample.parser Sample.this "0671234567" (Some "UA"))
      Sample.store.
Proof.
  apply (@parse_other_entry Sample.parser _ _ _ "0671234567" (Some "UA") "CA"
           Sample.ten_digits sample_store_table).
  intros p [= <-]. discriminate.
Defined.

Lemma remove_keeps_accepted_sample :
  result (removeCountryValidation Sample.this "FR";;
          @parse Sample.parser Sample.this "+33612345678" None)
    Sample.store
  = Normal (Some "+33612345678").
Proof.
  apply (@remove_keeps_accepted Sample.parser _ _ _ "+33612345678" None "FR"
           "+33612345678" sample_store_table).
  reflexivity.
Defined.

Lemma add_only_rejects_sample :
  result (addCountryValidation Sample.this "GB" pattern_UK;;
          @parse Sample.parser Sample.this "+442071838750" None)
    Sample.store
  = result (@parse Sample.parser Sample.this "+442071838750" None)
      Sample.store
  \/ result (addCountryValidation Sample.this "GB" pattern_UK;;
             @parse Sample.parser Sample.this "+442071838750" None)
       Sample.store
     = Normal None.
Proof.
  apply (@add_only_rejects Sample.parser _ _ _ "+442071838750" None "GB"
           pattern_UK sample_store_table).
  reflexivity.
Defined.

Lemma table_frame_sample :
  (exists t1,
     policy_table (exec (addCountryValidation Sample.this "CA" pattern_US)
                     Sample.store) Sample.this t1 /\
     forall k, k <> "CA" -> t1 !! k = default_validations !! k) /\
  (exists t2,
     policy_table (exec (removeCountryValidation Sample.this "CA")
                     Sample.store) Sample.this t2 /\
     forall k, k <> "CA" -> t2 !! k = default_validations !! k) /\
  (forall l,
     l <> countryValidations Sample.this ->
     exec (addCountryValidation Sample.this "CA" pattern_US) Sample.store !! l
     = Sample.store !! l /\
     exec (removeCountryValidation Sample.this "CA") Sample.store !! l
     = Sample.store !! l).
Proof.
  exact (table_frame _ _ _ "CA" pattern_US sample_store_table).
Defined.

Lemma add_overwrites_sample :
  (addCountryValidation Sample.this "US" Sample.ten_digits;;
   addCountryValidation Sample.this "US" pattern_FR) Sample.store
  = addCountryValidation Sample.this "US" pattern_FR Sample.store /\
  policy_table
    (exec (addCountryValidation Sample.this "US" pattern_FR) Sample.store)
    Sample.this (<["US" := pattern_FR]> default_validations).
Proof.
  exact (add_overwrites _ _ _ "US" Sample.ten_digits pattern_FR
           sample_store_table).
Defined.

Lemma add_order_same_answers_sample :
  result (addCountryValidation Sample.this "CA" pattern_US;;
          addCountryValidation Sample.this "GB" pattern_UK;;
          get_prop (countryValidations Sample.this) "GB") Sample.store
  = result (addCountryValidation Sample.this "GB" pattern_UK;;
            addCountryValidation Sample.this "CA" pattern_US;;
            get_prop (countryValidations Sample.this) "GB") Sample.store /\
  result (addCountryValidation Sample.this "CA" pattern_US;;
          addCountryValidation Sample.this "GB" pattern_UK;;
          @parse Sample.parser Sample.this "+15145551234" None)
    Sample.store
  = result (addCountryValidation Sample.this "GB" pattern_UK;;
            addCountryValidation Sample.this "CA" pattern_US;;
            @parse Sample.parser Sample.this "+15145551234" None)
      Sample.store /\
  result (addCountryValidation Sample.this "CA" pattern_US;;
          addCountryValidation Sample.this "GB" pattern_UK;;
          @validate Sample.parser Sample.this "+15145551234" "CA")
    Sample.store
  = result (addCountryValidation Sample.this "GB" pattern_UK;;
            addCountryValidation Sample.this "CA" pattern_US;;
            @validate Sample.parser Sample.this "+15145551234" "CA")
      Sample.store.
Proof.
  apply (@add_order_same_answers Sample.parser _ _ _ "CA" "GB" pattern_US
           pattern_UK "+15145551234" None "CA" "GB" sample_store_table);
    discriminate.
Defined.


Lemma remove_add_same_answers_sample :
  result (removeCountryValidation Sample.this "US";;
          addCountryValidation Sample.this "US" Sample.ten_digits;;
          get_prop (countryValidations Sample.this) "US") Sample.store
  = result (addCountryValidation Sample.this "US" Sample.ten_digits;;
            get_prop (countryValidations Sample.this) "US") Sample.store /\
  result (removeCountryValidation Sample.this "US";;
          addCountryValidation Sample.this "US" Sample.ten_digits;;
          @parse Sample.parser Sample.this "+11234567890" None) Sample.store
  = result (addCountryValidation Sample.this "US" Sample.ten_digits;;
            @parse Sample.parser Sample.this "+11234567890" None)
      Sample.store /\
  result (removeCountryValidation Sample.this "US";;
          addCountryValidation Sample.this "US" Sample.ten_digits;;
          @validate Sample.parser Sample.this "+11234567890" "US")
    Sample.store
  = result (addCountryValidation Sample.this "US" Sample.ten_digits;;
            @validate Sample.parser Sample.this "+11234567890" "US")
      Sample.store.
Proof.
  apply (@remove_add_same_answers Sample.parser _ _ _ "US" Sample.ten_digits
           "+11234567890" None "US" "US" sample_store_table).
  discriminate.
Defined.


Lemma validate_after_add_sample :
  exists (b : bool) (r : option string),
    (addCountryValidation Sample.this "CA" pattern_US;;
     @validate Sample.parser Sample.this "+15145551234" "CA") Sample.store
    = (Normal b,
       exec (addCountryValidation Sample.this "CA" pattern_US) Sample.store) /\
    (addCountryValidation Sample.this "CA" pattern_US;;
     @parse Sample.parser Sample.this "+15145551234" (Some "CA")) Sample.store
    = (Normal r,
       exec (addCountryValidation Sample.this "CA" pattern_US) Sample.store) /\
    (b = true <-> r <> None).
Proof.
  exact (@validate_after_add Sample.parser _ _ _ "+15145551234" "CA"
           pattern_US sample_store_table).
Defined.

(** With the sample parser the lines printed are those of the comments of the
    example. *)
Example module_body_sample :
  @module_body Sample.parser (∅, [])
  = (Throw (Error "Validation rules not defined for country: FR"),
     (exec (removeCountryValidation Sample.this "FR")
        (exec (addCountryValidation Sample.this "CA" pattern_US)
           Sample.store),
      [LogString (Some "+11234567890"); LogString (Some "+442071838750");
       LogString (Some "+380671234567"); LogString (Some "+33612345678");
       LogString (Some "+4915123456789"); LogBoolean true; LogBoolean true;
       LogBoolean false; LogBoolean false; LogBoolean true;
       LogObject (countryValidations Sample.this)])).
Proof. by vm_compute. Qed.
